(** * Financial Statement Consolidator: proxy routes and page state

    A shallow embedding of the two Next.js route handlers
    ([app/api/consolidate/route.ts], [app/api/export-xlsx/route.ts]) and of
    the event handlers of [app/page.tsx], with the properties the
    specification states about them.

    Asynchronous handlers are written in a small monad that threads the
    network (what each [fetch] settles to) and records the effects the
    handler performs, in order.  A rejected promise that is awaited
    becomes a thrown value. *)

From Stdlib Require Import ZArith String Ascii List Lia.
From stdpp Require Import base option list gmap strings pretty.

Local Open Scope string_scope.
Local Open Scope Z_scope.
Local Open Scope list_scope.

(** ** Values shared by the server and the browser side *)

Module Web.

Abbreviation bytes := (list Byte.byte).

(** The UTF-8 bytes of a string; strings are kept as byte strings. *)
Definition utf8 (s : string) : bytes := list_byte_of_string s.

(** What a [throw] (or a rejected promise) carries.  The page only asks
    whether the value is an instance of [Error] and, if so, for its
    message. *)
Inductive Thrown : Type :=
| ErrorObject (message : string)
| OtherValue (shown : string).

Inductive Completion (A : Type) : Type :=
| Normal (a : A)
| Throw (t : Thrown).
Arguments Normal {A} a.
Arguments Throw {A} t.

Definition DQUOTE : string := String (ascii_of_nat 34) EmptyString.
Definition CRLF : string :=
  String (ascii_of_nat 13) (String (ascii_of_nat 10) EmptyString).

(** [a || b] on a value that is a string, [null] or [undefined]: the
    empty string is falsy like the missing value. *)
Definition or_string (a : option string) (b : string) : string :=
  match a with
  | Some s => if decide (s = "") then b else s
  | None => b
  end.

Record File : Type := {
  file_name : string;
  file_type : string;
  file_bytes : bytes
}.

Inductive FormDataEntryValue : Type :=
| FormString (s : string)
| FormFile (f : File).

(** A file to upload in the examples. *)
Definition one_pdf : File :=
  {| file_name := "fy2023.pdf";
     file_type := "application/pdf";
     file_bytes := utf8 "%PDF-1.7" |}.

(** A [FormData] object: its entries in insertion order. *)
Abbreviation FormData := (list (string * FormDataEntryValue)).

(** Effects of a handler, generic in the description of a fetch call:
    a request sent with [fetch], or a file handed to the browser's
    download machinery. *)
Inductive Effect (Call : Type) : Type :=
| Fetched (c : Call)
| Saved (name : string) (content : bytes).
Arguments Fetched {Call} c.
Arguments Saved {Call} name content.

(** The requests among some effects, in order. *)
Fixpoint fetched {Call} (tr : list (Effect Call)) : list Call :=
  match tr with
  | [] => []
  | Fetched c :: tr' => c :: fetched tr'
  | Saved _ _ :: tr' => fetched tr'
  end.

(** One run of a handler: the effects it performed, the component state
    it leaves, and how it completed. *)
Record Run (St Call A : Type) : Type := {
  trace : list (Effect Call);
  final : St;
  outcome : Completion A
}.
Arguments trace {St Call A} r.
Arguments final {St Call A} r.
Arguments outcome {St Call A} r.

Section Async.
Context {St Call Reply : Type}.

(** The network: what the promise returned by [fetch] settles to. *)
Definition Network : Type := Call -> Completion Reply.

Definition Async (A : Type) : Type := Network -> St -> Run St Call A.

Definition ret {A} (a : A) : Async A :=
  fun _ st => {| trace := []; final := st; outcome := Normal a |}.

Definition throw {A} (t : Thrown) : Async A :=
  fun _ st => {| trace := []; final := st; outcome := Throw t |}.

Definition bind {A B} (m : Async A) (k : A -> Async B) : Async B :=
  fun net st =>
    let r := m net st in
    match outcome r with
    | Normal a =>
        let r' := k a net (final r) in
        {| trace := trace r ++ trace r';
           final := final r';
           outcome := outcome r' |}
    | Throw t => {| trace := trace r; final := final r; outcome := Throw t |}
    end.

(** [await p] for a promise whose outcome is already determined. *)
Definition await {A} (p : Completion A) : Async A :=
  fun _ st => {| trace := []; final := st; outcome := p |}.

Definition fetch (c : Call) : Async Reply :=
  fun net st => {| trace := [Fetched c]; final := st; outcome := net c |}.

Definition save (name : string) (content : bytes) : Async unit :=
  fun _ st =>
    {| trace := [Saved name content]; final := st; outcome := Normal tt |}.

(** Reading the state the handler closed over, and a state setter. *)
Definition get : Async St :=
  fun _ st => {| trace := []; final := st; outcome := Normal st |}.

Definition modify (f : St -> St) : Async unit :=
  fun _ st => {| trace := []; final := f st; outcome := Normal tt |}.

(** [try { body } catch (e) { handler e }] *)
Definition try_catch {A} (body : Async A) (handler : Thrown -> Async A)
  : Async A :=
  fun net st =>
    let r := body net st in
    match outcome r with
    | Normal a => r
    | Throw t =>
        let r' := handler t net (final r) in
        {| trace := trace r ++ trace r';
           final := final r';
           outcome := outcome r' |}
    end.

(** [try { body } finally { cleanup }] *)
Definition try_finally {A} (body : Async A) (cleanup : Async unit)
  : Async A :=
  fun net st =>
    let r := body net st in
    let r' := cleanup net (final r) in
    {| trace := trace r ++ trace r';
       final := final r';
       outcome := match outcome r' with
                  | Normal _ => outcome r
                  | Throw t => Throw t
                  end |}.
End Async.

Arguments Network : clear implicits.
Arguments Async : clear implicits.

#[global] Instance Async_ret {St Call Reply} : MRet (Async St Call Reply) :=
  fun A a => ret a.
#[global] Instance Async_bind {St Call Reply} : MBind (Async St Call Reply) :=
  fun A B k m => bind m k.

End Web.

Import Web.

(** ** The route handlers *)

Module Proxy.

(** [process.env]: a variable is a string or is not set. *)
Abbreviation Env := (gmap string string).

(** A [Headers] object, read through [get]: names are lower case. *)
Abbreviation Headers := (gmap string string).

(** The body handed to [fetch] in its init object. *)
Inductive BodyInit : Type :=
| BodyText (s : string)
| BodyFormData (fd : FormData)
| BodyBuffer (raw : bytes).

Record FetchCall : Type := {
  fc_url : string;
  fc_method : string;
  fc_headers : list (string * string);
  fc_body : BodyInit
}.

(** A response whose body has been read completely ([arrayBuffer()]). *)
Record Response : Type := {
  rs_status : Z;
  rs_headers : Headers;
  rs_body : bytes
}.

(** The incoming request, seen through its accessors: the bytes of the
    body as they arrived, and what [formData()] and [text()] settle
    to. *)
Record NextRequest : Type := {
  rq_bytes : bytes;
  rq_formData : Completion FormData;
  rq_text : Completion string
}.

(** Statuses for which a response has no body (Fetch standard). *)
Definition null_body_status (status : Z) : bool :=
  bool_decide (status ∈ [101; 103; 204; 205; 304]).

(** [new NextResponse(body, { status, headers })].  [NextResponse]
    extends [Response], whose constructor rejects a status outside
    200..599 with a [RangeError] and a body given together with a
    null-body status with a [TypeError]. *)
Definition NextResponse_new (body : option bytes) (status : Z)
    (headers : Headers) : Completion Response :=
  if negb ((200 <=? status) && (status <=? 599)) then
    Throw (ErrorObject ("init[" +:+ DQUOTE +:+ "status" +:+ DQUOTE +:+
                        "] must be in the range of 200 to 599, inclusive."))
  else if bool_decide (is_Some body) && null_body_status status then
    Throw (ErrorObject ("Response constructor: Invalid response status code "
                        +:+ pretty status))
  else
    Normal {| rs_status := status;
              rs_headers := headers;
              rs_body := default [] body |}.

Definition backend_origin (env : Env) : string :=
  or_string (env !! "BACKEND_INTERNAL_URL") "http://127.0.0.1:8000".

Module ConsolidateRoute.

Definition POST (env : Env) (req : NextRequest)
  : Async unit FetchCall Response Response :=
  let backend := backend_origin env in
  body ← await (rq_formData req);
  response ← fetch {| fc_url := backend +:+ "/api/consolidate";
                       fc_method := "POST";
                       fc_headers := [];
                       fc_body := BodyFormData body |};
  let contentType :=
    or_string (rs_headers response !! "content-type") "application/json" in
  let raw := rs_body response in
  await (NextResponse_new (Some raw) (rs_status response)
           {[ "content-type" := contentType ]}).

End ConsolidateRoute.

Module ExportRoute.

Definition xlsx_mime : string :=
  "application/vnd.openxmlformats-officedocument.spreadsheetml.sheet".

(** The text [attachment; filename="consolidated.xlsx"], with its two
    quotation marks. *)
Definition default_disposition : string :=
  "attachment; filename=" +:+ DQUOTE +:+ "consolidated.xlsx" +:+ DQUOTE.

Definition POST (env : Env) (req : NextRequest)
  : Async unit FetchCall Response Response :=
  let backend := backend_origin env in
  body ← await (rq_text req);
  response ← fetch {| fc_url := backend +:+ "/api/export-xlsx";
                       fc_method := "POST";
                       fc_headers := [("Content-Type", "application/json")];
                       fc_body := BodyText body |};
  let raw := rs_body response in
  let headers : Headers := ∅ in
  let headers :=
    <[ "content-type" :=
         or_string (rs_headers response !! "content-type") xlsx_mime ]>
      headers in
  let headers :=
    <[ "content-disposition" :=
         or_string (rs_headers response !! "content-disposition")
           default_disposition ]>
      headers in
  await (NextResponse_new (Some raw) (rs_status response) headers).

End ExportRoute.

(** *** Bytes on the wire *)

(** The body bytes a [fetch] sends.  Text goes out as UTF-8, a buffer as
    it is; a [FormData] body is serialised afresh by the runtime as
    multipart/form-data, under a boundary the runtime picks.  [encode]
    stands for that serialiser: it sees the entries only. *)
Definition wire_bytes (encode : FormData -> bytes) (b : BodyInit) : bytes :=
  match b with
  | BodyText s => utf8 s
  | BodyFormData fd => encode fd
  | BodyBuffer raw => raw
  end.

(** The body bytes a run of a handler has sent to the backend. *)
Definition forwarded (encode : FormData -> bytes)
    (tr : list (Effect FetchCall)) : list bytes :=
  (fun c => wire_bytes encode (fc_body c)) <$> fetched tr.

(** The multipart/form-data layout (RFC 7578) of a form submission, as a
    client writes it for a boundary of its choice; used to write down
    concrete submissions. *)
Definition multipart_part (boundary : string)
    (e : string * FormDataEntryValue) : bytes :=
  utf8 ("--" +:+ boundary +:+ CRLF +:+
        "Content-Disposition: form-data; name=" +:+ DQUOTE +:+ e.1 +:+ DQUOTE)
  ++ match e.2 with
     | FormString s => utf8 (CRLF +:+ CRLF +:+ s)
     | FormFile f =>
         utf8 ("; filename=" +:+ DQUOTE +:+ file_name f +:+ DQUOTE +:+ CRLF +:+
               "Content-Type: " +:+ file_type f +:+ CRLF +:+ CRLF)
         ++ file_bytes f
     end
  ++ utf8 CRLF.

Definition multipart_encode (boundary : string) (fd : FormData) : bytes :=
  concat (multipart_part boundary <$> fd)
  ++ utf8 ("--" +:+ boundary +:+ "--" +:+ CRLF).

(** A submission as a client sends it. *)
Definition submission (boundary : string) (fd : FormData) : NextRequest :=
  {| rq_bytes := multipart_encode boundary fd;
     rq_formData := Normal fd;
     rq_text := Normal (string_of_list_byte (multipart_encode boundary fd)) |}.

(** *** Vocabulary of the statements *)

(** The statuses the [Response] constructor accepts together with a
    body. *)
Definition relayable (status : Z) : bool :=
  (200 <=? status) && (status <=? 599) && negb (null_body_status status).

(** The requests the two handlers send. *)
Definition consolidate_call (env : Env) (fd : FormData) : FetchCall :=
  {| fc_url := backend_origin env +:+ "/api/consolidate";
     fc_method := "POST";
     fc_headers := [];
     fc_body := BodyFormData fd |}.

Definition export_call (env : Env) (body : string) : FetchCall :=
  {| fc_url := backend_origin env +:+ "/api/export-xlsx";
     fc_method := "POST";
     fc_headers := [("Content-Type", "application/json")];
     fc_body := BodyText body |}.

(** Concrete inputs. *)
Definition upload_form : FormData :=
  [("pdfs", FormFile one_pdf); ("coa_csv", FormString "1000,Cash")].

Definition custom_env : Env :=
  {[ "BACKEND_INTERNAL_URL" := "http://backend:9000" ]}.

Definition binary_headers : Headers :=
  {[ "content-type" := "application/octet-stream" ]}.

Definition json_request (body : string) : NextRequest :=
  {| rq_bytes := utf8 body;
     rq_formData := Throw (ErrorObject "Failed to parse body as FormData.");
     rq_text := Normal body |}.

Definition reply (status : Z) (headers : Headers) (body : bytes)
  : Network FetchCall Response :=
  fun _ => Normal {| rs_status := status;
                     rs_headers := headers;
                     rs_body := body |}.

End Proxy.

(** ** The page *)

Module Page.

(** A JSON value as a cell of a row holds it; [num] is the type of
    JavaScript numbers. *)
Inductive Value (num : Type) : Type :=
| VNull
| VString (s : string)
| VNumber (n : num).
Arguments VNull {num}.
Arguments VString {num} s.
Arguments VNumber {num} n.

(** A row is used as an object indexed by a key computed at run time
    ([row[key] = ...]). *)
Abbreviation Row num := (gmap string (Value num)).

Record Meta : Type := {
  units : option string;
  ttm_present : bool;
  warnings : list string
}.

(** [rows] is a JavaScript array: [None] is a slot that holds no row and
    reads as [undefined].  An empty slot, which a write past the end
    leaves behind, and a slot that holds [undefined], which copying the
    array makes of an empty slot, are both [None]: the model does not
    tell them apart, and is exact for arrays whose slots all hold
    rows. *)
Record ConsolidatedResult (num : Type) : Type := {
  meta : Meta;
  rows : list (option (Row num))
}.
Arguments meta {num} c.
Arguments rows {num} c.

Definition numFields : list string :=
  ["y2022"; "y2023"; "y2024"; "ttm"; "mapping_confidence"; "confidence"].

(** [rows[index]] *)
Definition array_get {A} (a : list (option A)) (index : nat) : option A :=
  a !! index ≫= id.

(** [rows[index] = row]: in range the slot is overwritten; past the end
    the array grows, leaving empty slots in between. *)
Definition array_set {A} (a : list (option A)) (index : nat) (x : A)
  : list (option A) :=
  if decide (index < length a)%nat then <[ index := Some x ]> a
  else a ++ replicate (index - length a) None ++ [Some x].

(** [{ ...row }]: spreading [undefined] gives the empty object. *)
Definition spread {num} (o : option (Row num)) : Row num := default ∅ o.

(** The body of a request the page sends: a form, or the text
    [JSON.stringify(payload)], kept as the value that is stringified.
    The text does not determine that value: a number that is not finite
    and a slot without a row are both written as null. *)
Inductive RequestBody (num : Type) : Type :=
| FormBody (form : FormData)
| JsonBody (payload : ConsolidatedResult num).
Arguments FormBody {num} form.
Arguments JsonBody {num} payload.

Record FetchCall (num : Type) : Type := {
  url : string;
  method : string;
  headers : list (string * string);
  body : RequestBody num
}.
Arguments url {num} f.
Arguments method {num} f.
Arguments headers {num} f.
Arguments body {num} f.

(** A response as the page reads it: its status and what [text()],
    [json()] and [blob()] settle to. *)
Record Response (num : Type) : Type := {
  res_status : Z;
  res_text : Completion string;
  res_json : Completion (ConsolidatedResult num);
  res_blob : Completion bytes
}.
Arguments res_status {num} r.
Arguments res_text {num} r.
Arguments res_json {num} r.
Arguments res_blob {num} r.

(** [res.ok] *)
Definition ok {num} (res : Response num) : bool :=
  (200 <=? res_status res) && (res_status res <=? 299).

(** The state of the [Home] component. *)
Record State (num : Type) : Type := {
  files : list File;
  coaText : string;
  result : option (ConsolidatedResult num);
  loading : bool;
  error : option string
}.
Arguments files {num} s.
Arguments coaText {num} s.
Arguments result {num} s.
Arguments loading {num} s.
Arguments error {num} s.

Definition initial {num} : State num :=
  {| files := []; coaText := ""; result := None;
     loading := false; error := None |}.

Section Home.
Context {num : Type}.

(** [Number(value)] *)
Variable Number : string -> num.

Definition setFiles (v : list File) (st : State num) : State num :=
  {| files := v; coaText := coaText st; result := result st;
     loading := loading st; error := error st |}.

Definition setCoaText (v : string) (st : State num) : State num :=
  {| files := files st; coaText := v; result := result st;
     loading := loading st; error := error st |}.

Definition setResult (v : option (ConsolidatedResult num)) (st : State num)
  : State num :=
  {| files := files st; coaText := coaText st; result := v;
     loading := loading st; error := error st |}.

Definition setLoading (v : bool) (st : State num) : State num :=
  {| files := files st; coaText := coaText st; result := result st;
     loading := v; error := error st |}.

Definition setError (v : option string) (st : State num) : State num :=
  {| files := files st; coaText := coaText st; result := result st;
     loading := loading st; error := v |}.

Abbreviation Handler := (Async (State num) (FetchCall num) (Response num) unit).

Definition onRun : Handler :=
  st ← get;
  modify (setError None);;
  modify (setLoading true);;
  try_finally
    (try_catch
       (let form := (fun f => ("pdfs", FormFile f)) <$> files st in
        let form := form ++ [("coa_csv", FormString (coaText st))] in
        res ← fetch {| url := "/api/consolidate";
                       method := "POST";
                       headers := [];
                       body := FormBody form |};
        if negb (ok res) then
          text ← await (res_text res);
          throw (ErrorObject (or_string (Some text) "Failed to consolidate"))
        else
          data ← await (res_json res);
          modify (setResult (Some data)))
       (fun e =>
          modify (setError (Some match e with
                                 | ErrorObject message => message
                                 | OtherValue _ => "Unexpected error"
                                 end))))
    (modify (setLoading false)).

(** [file.text()]: the promise of the file's content decoded as UTF-8
    (a byte order mark is dropped, invalid bytes are replaced); it is
    rejected when the file cannot be read. *)
Variable File_text : File -> Completion string.

Definition onCoaUpload (file : File) : Handler :=
  txt ← await (File_text file);
  modify (setCoaText txt).

Definition onDownload : Handler :=
  st ← get;
  match result st with
  | None => mret tt
  | Some r =>
      res ← fetch {| url := "/api/export-xlsx";
                     method := "POST";
                     headers := [("Content-Type", "application/json")];
                     body := JsonBody r |};
      if negb (ok res) then
        modify (setError (Some "Export failed"))
      else
        blob ← await (res_blob res);
        save "consolidated.xlsx" blob
  end.

(** The function [updateRow] passes to [setResult]. *)
Definition updateRow_updater (index : nat) (key value : string)
    (prev : option (ConsolidatedResult num))
  : option (ConsolidatedResult num) :=
  match prev with
  | None => prev
  | Some p =>
      let rows := rows p in
      let row := spread (array_get rows index) in
      let row :=
        if bool_decide (key ∈ numFields) then
          <[ key := if decide (value = "") then VNull
                    else VNumber (Number value) ]> row
        else
          <[ key := if decide (value = "") then VNull
                    else VString value ]> row in
      let rows := array_set rows index row in
      Some {| meta := meta p; rows := rows |}
  end.

Definition updateRow (index : nat) (key value : string) : Handler :=
  modify (fun st =>
            setResult (updateRow_updater index key value (result st)) st).

(** The cell [rows[index][key]] of the result on display. *)
Definition cell (st : State num) (index : nat) (key : string)
  : option (Value num) :=
  r ← result st; row ← array_get (rows r) index; row !! key.

(** The requests the two actions send, and the message the page shows
    for a value caught in [onRun]. *)
Definition run_call (st : State num) : FetchCall num :=
  {| url := "/api/consolidate";
     method := "POST";
     headers := [];
     body := FormBody (((fun f => ("pdfs", FormFile f)) <$> files st)
                       ++ [("coa_csv", FormString (coaText st))]) |}.

Definition download_call (r : ConsolidatedResult num) : FetchCall num :=
  {| url := "/api/export-xlsx";
     method := "POST";
     headers := [("Content-Type", "application/json")];
     body := JsonBody r |}.

Definition caught_message (t : Thrown) : string :=
  match t with
  | ErrorObject message => message
  | OtherValue _ => "Unexpected error"
  end.

(** The Download button is part of the page only while a result is. *)
Definition download_offered (st : State num) : bool :=
  bool_decide (is_Some (result st)).

(** *** The remaining event handlers *)

(** The PDF chooser: [setFiles(Array.from(e.target.files || []))];
    [selected] is [e.target.files], which may be [null]. *)
Definition onFilesChange (selected : option (list File)) : Handler :=
  modify (setFiles (default [] selected)).

(** The COA text area: [setCoaText(e.target.value)]. *)
Definition onCoaTextChange (value : string) : Handler :=
  modify (setCoaText value).

(** The COA file chooser:
    [e.target.files?.[0] && onCoaUpload(e.target.files[0])]. *)
Definition onCoaFileChange (selected : option (list File)) : Handler :=
  match selected ≫= head with
  | Some file => onCoaUpload file
  | None => mret tt
  end.

(** *** What the page renders *)

(** [hasRows]: [(result?.rows?.length ?? 0) > 0] *)
Definition hasRows (st : State num) : bool :=
  match result st with
  | Some r => bool_decide (0 < length (rows r))%nat
  | None => false
  end.

(** The Run button: [disabled={loading || files.length === 0}], and its
    label. *)
Definition run_disabled (st : State num) : bool :=
  loading st || bool_decide (length (files st) = 0%nat).

Definition run_label (st : State num) : string :=
  if loading st then "Running..." else "Run".

(** [{error && <p>...{error}</p>}]: the paragraph and its text; an empty
    message is falsy and renders nothing. *)
Definition error_shown (st : State num) : option string :=
  match error st with
  | Some message => if decide (message = "") then None else Some message
  | None => None
  end.

(** [String(n)], the text an input shows for a number. *)
Variable String_of_number : num -> string.

(** [value={v ?? ''}] of the input of a cell. *)
Definition input_value (v : Value num) : string :=
  match v with
  | VNull => ""
  | VString s => s
  | VNumber n => String_of_number n
  end.

(** The value an edit of field [key] with input [value] stores. *)
Definition coerced (key value : string) : Value num :=
  if bool_decide (key ∈ numFields) then
    if decide (value = "") then VNull else VNumber (Number value)
  else
    if decide (value = "") then VNull else VString value.

End Home.

(** *** Sample data

    In the samples a JavaScript number is written as the decimal text
    that denotes it; [Number] of such a text is then the text itself. *)
Definition decimal : Type := string.

Definition Number_of_decimal (value : string) : decimal := value.

Definition cash_row : Row decimal :=
  <[ "account_number" := VString "1000" ]>
    (<[ "account_name" := VString "Cash" ]>
       (<[ "y2022" := VNumber "120" ]>
          (<[ "y2023" := VNumber "98.25" ]>
             (<[ "y2024" := VNull ]>
                (<[ "ttm" := VNull ]>
                   (<[ "mapping_confidence" := VNumber "0.9" ]>
                      (<[ "notes" := VNull ]> ∅))))))).

Definition rent_row : Row decimal :=
  <[ "account_number" := VNull ]>
    (<[ "account_name" := VString "Rent" ]>
       (<[ "y2023" := VNumber "-40" ]>
          (<[ "notes" := VString "estimated" ]> ∅))).

Definition sample_result : ConsolidatedResult decimal :=
  {| meta := {| units := Some "USD"; ttm_present := false;
                warnings := ["TTM column not found"] |};
     rows := [Some cash_row; Some rent_row] |}.

Definition sample_state : State decimal :=
  {| files := [one_pdf]; coaText := "1000,Cash";
     result := Some sample_result; loading := false; error := None |}.

Definition ready_state : State decimal :=
  {| files := [one_pdf]; coaText := "1000,Cash";
     result := None; loading := false; error := None |}.

(** The fetch fails at the network level: the promise is rejected with
    a [TypeError]. *)
Definition offline : Network (FetchCall decimal) (Response decimal) :=
  fun _ => Throw (ErrorObject "Failed to fetch").

Definition server_error : Response decimal :=
  {| res_status := 500;
     res_text := Normal "Internal Server Error";
     res_json := Throw (ErrorObject "Unexpected token I in JSON at position 0");
     res_blob := Normal (utf8 "Internal Server Error") |}.

Definition consolidated : Response decimal :=
  {| res_status := 200;
     res_text := Normal "{...}";
     res_json := Normal sample_result;
     res_blob := Normal (utf8 "{...}") |}.

Definition spreadsheet : Response decimal :=
  {| res_status := 200;
     res_text := Normal "PK";
     res_json := Throw (ErrorObject "Unexpected token P in JSON at position 0");
     res_blob := Normal (utf8 "PK") |}.

Definition coa_file : File :=
  {| file_name := "coa.csv";
     file_type := "text/csv";
     file_bytes := utf8 "2000,Rent" |}.

(** [file.text()] for the sample files, whose bytes are plain ASCII. *)
Definition text_of_ascii_file (file : File) : Completion string :=
  Normal (string_of_list_byte (file_bytes file)).

Definition answering (res : Response decimal)
  : Network (FetchCall decimal) (Response decimal) :=
  fun _ => Normal res.

End Page.

(** ** Properties of the route handlers *)

Module ProxyFacts.
Import Proxy.

Lemma NextResponse_new_relayable raw status headers :
  relayable status = true ->
  NextResponse_new (Some raw) status headers
  = Normal {| rs_status := status; rs_headers := headers; rs_body := raw |}.
Proof.
  unfold relayable, NextResponse_new. intros H.
  apply andb_prop in H as [Hrange Hnull].
  rewrite Hrange. simpl negb at 1. cbv iota.
  apply negb_true_iff in Hnull. rewrite Hnull, andb_false_r. reflexivity.
Qed.

Lemma NextResponse_new_null_body raw status headers :
  null_body_status status = true ->
  exists t, NextResponse_new (Some raw) status headers = Throw t.
Proof.
  unfold NextResponse_new. intros H.
  destruct (negb _); [eauto |].
  rewrite H, andb_true_r.
  rewrite bool_decide_eq_true_2 by eauto. eauto.
Qed.

(** One run of each handler, once the request body could be read. *)
Lemma consolidate_run env net req fd :
  rq_formData req = Normal fd ->
  ConsolidateRoute.POST env req net tt
  = {| trace := [Fetched (consolidate_call env fd)];
       final := tt;
       outcome :=
     match net (consolidate_call env fd) with
     | Normal response =>
         NextResponse_new (Some (rs_body response)) (rs_status response)
           {[ "content-type" :=
                or_string (rs_headers response !! "content-type")
                  "application/json" ]}
     | Throw t => Throw t
     end |}.
Proof.
  intros Hfd.
  unfold ConsolidateRoute.POST, mbind, Async_bind, bind, await, fetch.
  cbn [outcome trace final]. rewrite Hfd.
  change {| fc_url := _; fc_method := _; fc_headers := _; fc_body := _ |}
    with (consolidate_call env fd).
  destruct (net (consolidate_call env fd)); reflexivity.
Qed.

Lemma export_run env net req body :
  rq_text req = Normal body ->
  ExportRoute.POST env req net tt
  = {| trace := [Fetched (export_call env body)];
       final := tt;
       outcome :=
     match net (export_call env body) with
     | Normal response =>
         NextResponse_new (Some (rs_body response)) (rs_status response)
           (<[ "content-disposition" :=
                 or_string (rs_headers response !! "content-disposition")
                   ExportRoute.default_disposition ]>
              (<[ "content-type" :=
                    or_string (rs_headers response !! "content-type")
                      ExportRoute.xlsx_mime ]> ∅))
     | Throw t => Throw t
     end |}.
Proof.
  intros Hbody.
  unfold ExportRoute.POST, mbind, Async_bind, bind, await, fetch.
  cbn [outcome trace final]. rewrite Hbody.
  change {| fc_url := _; fc_method := _; fc_headers := _; fc_body := _ |}
    with (export_call env body).
  destruct (net (export_call env body)); reflexivity.
Qed.

Lemma or_string_absent d : or_string None d = d.
Proof. reflexivity. Qed.

Lemma or_string_empty d : or_string (Some "") d = d.
Proof. reflexivity. Qed.

Lemma or_string_given s d : s <> "" -> or_string (Some s) d = s.
Proof. intros H. unfold or_string. destruct (decide (s = "")); congruence. Qed.

(** C1, as stated, fails: two submissions that carry the same form
    entries under different boundaries differ in their bytes, yet the
    handler passes on nothing but the entries, so whatever the runtime's
    multipart serialiser is, it cannot reproduce the bytes of both. *)
Lemma consolidate_forward_not_byte_for_byte :
  ~ exists encode : FormData -> bytes,
      forall boundary : string,
        boundary ∈ ["AaB03x"; "7d81b516112482"] ->
        forwarded encode
          (trace (ConsolidateRoute.POST ∅ (submission boundary upload_form)
             (reply 200 ∅ []) tt))
        = [rq_bytes (submission boundary upload_form)].
Proof.
  intros [encode H].
  pose proof (H "AaB03x" ltac:(set_solver)) as Ha.
  pose proof (H "7d81b516112482" ltac:(set_solver)) as Hb.
  rewrite (consolidate_run _ _ _ upload_form) in Ha by reflexivity.
  rewrite (consolidate_run _ _ _ upload_form) in Hb by reflexivity.
  cbn [trace forwarded fetched fmap list_fmap wire_bytes fc_body
       consolidate_call] in Ha, Hb.
  rewrite Ha in Hb. vm_compute in Hb. discriminate Hb.
Qed.

(** C1 (amended): for every multipart submission the consolidate proxy
    sends exactly one request, a POST to the backend's consolidate
    endpoint whose body is the form data parsed from the submission:
    every file part and the coa_csv text part, with the same names, the
    same values and in the same order.  The bytes put on the wire are
    the runtime's own serialisation of those entries. *)
Theorem consolidate_forwards_form_entries
    (env : Env) (net : Network FetchCall Response) (req : NextRequest)
    (fd : FormData) (encode : FormData -> bytes) :
  rq_formData req = Normal fd ->
  fetched (trace (ConsolidateRoute.POST env req net tt))
  = [ {| fc_url := backend_origin env +:+ "/api/consolidate";
         fc_method := "POST";
         fc_headers := [];
         fc_body := BodyFormData fd |} ]
  /\ forwarded encode (trace (ConsolidateRoute.POST env req net tt))
     = [encode fd].
Proof.
  intros Hfd. rewrite (consolidate_run _ _ _ fd Hfd). split; reflexivity.
Qed.

Lemma consolidate_forwards_form_entries_witness :
  fetched (trace (ConsolidateRoute.POST ∅ (submission "AaB03x" upload_form)
             (reply 200 ∅ []) tt))
  = [ {| fc_url := "http://127.0.0.1:8000/api/consolidate";
         fc_method := "POST";
         fc_headers := [];
         fc_body := BodyFormData upload_form |} ]
  /\ forwarded (multipart_encode "undici")
       (trace (ConsolidateRoute.POST ∅ (submission "AaB03x" upload_form)
          (reply 200 ∅ []) tt))
     = [multipart_encode "undici" upload_form].
Proof.
  exact (consolidate_forwards_form_entries ∅ (reply 200 ∅ [])
           (submission "AaB03x" upload_form) upload_form
           (multipart_encode "undici") eq_refl).
Defined.

(** Where the [Response] constructor accepts the backend's status with
    a body, both handlers hand back the backend's status and body. *)
Lemma consolidate_relays env net req fd response :
  rq_formData req = Normal fd ->
  net (consolidate_call env fd) = Normal response ->
  relayable (rs_status response) = true ->
  exists r, outcome (ConsolidateRoute.POST env req net tt) = Normal r
            /\ rs_status r = rs_status response
            /\ rs_body r = rs_body response.
Proof.
  intros Hfd Hnet Hst. rewrite (consolidate_run _ _ _ fd Hfd), Hnet.
  cbn [outcome]. rewrite NextResponse_new_relayable by done. eauto.
Qed.

Lemma export_relays env net req body response :
  rq_text req = Normal body ->
  net (export_call env body) = Normal response ->
  relayable (rs_status response) = true ->
  exists r, outcome (ExportRoute.POST env req net tt) = Normal r
            /\ rs_status r = rs_status response
            /\ rs_body r = rs_body response.
Proof.
  intros Hbody Hnet Hst. rewrite (export_run _ _ _ body Hbody), Hnet.
  cbn [outcome]. rewrite NextResponse_new_relayable by done. eauto.
Qed.

(** With a null-body status (204, 205, 304) from the backend, both
    handlers throw instead of answering. *)
Lemma proxies_throw_on_null_body_status env net req_c req_e fd body response :
  rq_formData req_c = Normal fd ->
  rq_text req_e = Normal body ->
  net (consolidate_call env fd) = Normal response ->
  net (export_call env body) = Normal response ->
  null_body_status (rs_status response) = true ->
  (exists t, outcome (ConsolidateRoute.POST env req_c net tt) = Throw t)
  /\ (exists t, outcome (ExportRoute.POST env req_e net tt) = Throw t).
Proof.
  intros Hfd Hbody Hc He Hnull.
  rewrite (consolidate_run _ _ _ fd Hfd), (export_run _ _ _ body Hbody).
  rewrite Hc, He. cbn [outcome].
  split; by apply NextResponse_new_null_body.
Qed.

(** C2: the claim asks for the backend's status and body on every
    backend response.  On a 204 No Content answer neither handler
    returns a response at all: [arrayBuffer()] yields an (empty) buffer,
    a body that is not null, and the constructor refuses it for a
    null-body status. *)
Theorem proxies_throw_on_no_content :
  (outcome (ConsolidateRoute.POST ∅ (submission "AaB03x" upload_form)
     (reply 204 ∅ []) tt))
  = Throw (ErrorObject
             "Response constructor: Invalid response status code 204")
  /\ (outcome (ExportRoute.POST ∅ (json_request "{}") (reply 204 ∅ []) tt))
     = Throw (ErrorObject
                "Response constructor: Invalid response status code 204").
Proof. split; vm_compute; reflexivity. Qed.

(** C3, as stated, fails: a content-disposition header that the backend
    supplies with an empty value is not relayed; the default takes its
    place. *)
Lemma export_empty_disposition_not_relayed :
  exists r,
    outcome (ExportRoute.POST ∅ (json_request "{}")
               (reply 200 {[ "content-disposition" := "" ]} []) tt)
    = Normal r
    /\ ({[ "content-disposition" := "" ]} : Headers) !! "content-disposition"
       = Some ""
    /\ rs_headers r !! "content-disposition"
       = Some ExportRoute.default_disposition
    /\ ExportRoute.default_disposition <> "".
Proof.
  eexists. split; [reflexivity |]. repeat split. discriminate.
Qed.

(** C3 (amended): for every backend response to the export proxy whose
    status the proxy can answer with (200..599 other than 204, 205 and
    304), the proxy's response carries content-disposition
    [attachment; filename="consolidated.xlsx"] when the backend's
    header is missing or empty, and the OOXML spreadsheet MIME type as
    content-type when that header is missing or empty; a header the
    backend supplies with a non-empty value is relayed. *)
Theorem export_header_defaults
    (env : Env) (net : Network FetchCall Response) (req : NextRequest)
    (body : string) (response : Response) :
  rq_text req = Normal body ->
  net (export_call env body) = Normal response ->
  relayable (rs_status response) = true ->
  exists r,
    (outcome (ExportRoute.POST env req net tt)) = Normal r
    /\ (rs_headers response !! "content-disposition" = None
        \/ rs_headers response !! "content-disposition" = Some "" ->
        rs_headers r !! "content-disposition"
        = Some ExportRoute.default_disposition)
    /\ (rs_headers response !! "content-type" = None
        \/ rs_headers response !! "content-type" = Some "" ->
        rs_headers r !! "content-type" = Some ExportRoute.xlsx_mime)
    /\ (forall v, v <> "" ->
        rs_headers response !! "content-disposition" = Some v ->
        rs_headers r !! "content-disposition" = Some v)
    /\ (forall v, v <> "" ->
        rs_headers response !! "content-type" = Some v ->
        rs_headers r !! "content-type" = Some v).
Proof.
  intros Hbody Hnet Hst. rewrite (export_run _ _ _ body Hbody), Hnet.
  cbn [outcome]. rewrite NextResponse_new_relayable by done.
  eexists. split; [reflexivity |]. cbn [rs_headers].
  repeat split.
  - intros [H | H]; rewrite H, lookup_insert_eq; reflexivity.
  - intros [H | H]; rewrite H, lookup_insert_ne, lookup_insert_eq by done;
      reflexivity.
  - intros v Hv H. rewrite H, lookup_insert_eq, or_string_given; done.
  - intros v Hv H.
    rewrite H, lookup_insert_ne, lookup_insert_eq, or_string_given; done.
Qed.

Lemma export_header_defaults_witness :
  exists r,
    (outcome (ExportRoute.POST ∅ (json_request "{}")
       (reply 200 binary_headers
          (utf8 "PK")) tt)) = Normal r
    /\ rs_headers r !! "content-disposition"
       = Some ExportRoute.default_disposition
    /\ rs_headers r !! "content-type" = Some "application/octet-stream".
Proof.
  destruct (export_header_defaults ∅
              (reply 200 binary_headers
                 (utf8 "PK"))
              (json_request "{}") "{}"
              {| rs_status := 200;
                 rs_headers := binary_headers;
                 rs_body := utf8 "PK" |}
              eq_refl eq_refl eq_refl)
    as (r & Hr & Hdisp & _ & _ & Htype).
  exists r. split; [exact Hr |]. split.
  - apply Hdisp. left. reflexivity.
  - apply Htype; [discriminate | reflexivity].
Defined.

(** C8: both handlers address the backend at the value of
    BACKEND_INTERNAL_URL when that variable is set and not empty, and at
    http://127.0.0.1:8000 otherwise. *)
Theorem backend_origin_from_env
    (env : Env) (net : Network FetchCall Response)
    (req_c req_e : NextRequest) (fd : FormData) (body : string) :
  rq_formData req_c = Normal fd ->
  rq_text req_e = Normal body ->
  (forall s, env !! "BACKEND_INTERNAL_URL" = Some s -> s <> "" ->
     fc_url <$> fetched (trace (ConsolidateRoute.POST env req_c net tt))
     = [s +:+ "/api/consolidate"]
     /\ fc_url <$> fetched (trace (ExportRoute.POST env req_e net tt))
        = [s +:+ "/api/export-xlsx"])
  /\ (env !! "BACKEND_INTERNAL_URL" = None
      \/ env !! "BACKEND_INTERNAL_URL" = Some "" ->
      fc_url <$> fetched (trace (ConsolidateRoute.POST env req_c net tt))
      = ["http://127.0.0.1:8000/api/consolidate"]
      /\ fc_url <$> fetched (trace (ExportRoute.POST env req_e net tt))
         = ["http://127.0.0.1:8000/api/export-xlsx"]).
Proof.
  intros Hfd Hbody.
  rewrite (consolidate_run _ _ _ fd Hfd), (export_run _ _ _ body Hbody).
  cbn [trace fetched fmap list_fmap fc_url consolidate_call export_call].
  unfold backend_origin. split.
  - intros s Hs Hne. rewrite Hs, or_string_given by done. done.
  - intros [H | H]; rewrite H; done.
Qed.

Lemma backend_origin_from_env_witness :
  fc_url <$> fetched
    (trace (ConsolidateRoute.POST custom_env
       (submission "AaB03x" upload_form) (reply 200 ∅ []) tt))
  = ["http://backend:9000/api/consolidate"]
  /\ fc_url <$> fetched
       (trace (ExportRoute.POST custom_env
          (json_request "{}") (reply 200 ∅ []) tt))
     = ["http://backend:9000/api/export-xlsx"].
Proof.
  destruct (backend_origin_from_env
              custom_env
              (reply 200 ∅ []) (submission "AaB03x" upload_form)
              (json_request "{}") upload_form "{}" eq_refl eq_refl)
    as [Hset _].
  apply (Hset "http://backend:9000").
  - reflexivity.
  - discriminate.
Defined.

End ProxyFacts.

(** ** Properties of the page *)

Module PageFacts.
Import Page.

Section Facts.
Context {num : Type}.
Variable Number : string -> num.

Implicit Types (st : State num) (net : Network (FetchCall num) (Response num)).

(** Unfolds the monad so that a run of a handler computes. *)
Ltac run_handler :=
  unfold mbind, mret, Async_bind, Async_ret, bind, ret, try_finally,
    try_catch, get, modify, fetch, save, await, throw;
  cbn [outcome trace final app].

(** The four ways an attempt to consolidate can go. *)
Lemma onRun_rejected net st t :
  net (run_call st) = Throw t ->
  onRun net st
  = {| trace := [Fetched (run_call st)];
       final := setLoading false
                  (setError (Some (caught_message t))
                     (setLoading true (setError None st)));
       outcome := Normal tt |}.
Proof.
  intros H. unfold onRun. run_handler.
  change {| url := _; method := _; headers := _; body := _ |}
    with (run_call st).
  rewrite H. reflexivity.
Qed.

Lemma onRun_not_ok net st res :
  net (run_call st) = Normal res ->
  ok res = false ->
  onRun net st
  = {| trace := [Fetched (run_call st)];
       final := setLoading false
                  (setError
                     (Some match res_text res with
                           | Normal text =>
                               or_string (Some text) "Failed to consolidate"
                           | Throw t => caught_message t
                           end)
                     (setLoading true (setError None st)));
       outcome := Normal tt |}.
Proof.
  intros H Hok. unfold onRun. run_handler.
  change {| url := _; method := _; headers := _; body := _ |}
    with (run_call st).
  rewrite H. cbn [outcome trace final app]. rewrite Hok. cbn [negb].
  destruct (res_text res); reflexivity.
Qed.

Lemma onRun_bad_json net st res t :
  net (run_call st) = Normal res ->
  ok res = true ->
  res_json res = Throw t ->
  onRun net st
  = {| trace := [Fetched (run_call st)];
       final := setLoading false
                  (setError (Some (caught_message t))
                     (setLoading true (setError None st)));
       outcome := Normal tt |}.
Proof.
  intros H Hok Hjson. unfold onRun. run_handler.
  change {| url := _; method := _; headers := _; body := _ |}
    with (run_call st).
  rewrite H. cbn [outcome trace final app]. rewrite Hok. cbn [negb].
  rewrite Hjson. reflexivity.
Qed.

Lemma onRun_success net st res data :
  net (run_call st) = Normal res ->
  ok res = true ->
  res_json res = Normal data ->
  onRun net st
  = {| trace := [Fetched (run_call st)];
       final := setLoading false
                  (setResult (Some data)
                     (setLoading true (setError None st)));
       outcome := Normal tt |}.
Proof.
  intros H Hok Hjson. unfold onRun. run_handler.
  change {| url := _; method := _; headers := _; body := _ |}
    with (run_call st).
  rewrite H. cbn [outcome trace final app]. rewrite Hok. cbn [negb].
  rewrite Hjson. reflexivity.
Qed.

Lemma onDownload_run net st r :
  result st = Some r ->
  onDownload net st
  = match net (download_call r) with
    | Throw t =>
        {| trace := [Fetched (download_call r)]; final := st;
           outcome := Throw t |}
    | Normal res =>
        if ok res then
          match res_blob res with
          | Normal blob =>
              {| trace := [Fetched (download_call r);
                           Saved "consolidated.xlsx" blob];
                 final := st; outcome := Normal tt |}
          | Throw t =>
              {| trace := [Fetched (download_call r)]; final := st;
                 outcome := Throw t |}
          end
        else
          {| trace := [Fetched (download_call r)];
             final := setError (Some "Export failed") st;
             outcome := Normal tt |}
    end.
Proof.
  intros H. unfold onDownload. run_handler. rewrite H. run_handler.
  change {| url := _; method := _; headers := _; body := _ |}
    with (download_call r).
  destruct (net (download_call r)) as [res | t]; [| reflexivity].
  cbn [outcome trace final app].
  destruct (ok res); cbn [negb]; [| reflexivity].
  destruct (res_blob res); reflexivity.
Qed.

Lemma onDownload_without_result net st :
  result st = None ->
  onDownload net st = {| trace := []; final := st; outcome := Normal tt |}.
Proof. intros H. unfold onDownload. run_handler. rewrite H. reflexivity. Qed.

(** What an edit leaves in an existing slot of the array. *)
Lemma array_get_set_in_range {A} (a : list (option A)) index x :
  (index < length a)%nat ->
  array_set a index x = <[ index := Some x ]> a
  /\ array_get (array_set a index x) index = Some x.
Proof.
  intros Hlt. unfold array_set, array_get.
  rewrite decide_True by done. split; [done |].
  rewrite list_lookup_insert_eq by done. reflexivity.
Qed.

Lemma updateRow_run net st index key value :
  updateRow Number index key value net st
  = {| trace := [];
       final := setResult
                  (updateRow_updater Number index key value (result st)) st;
       outcome := Normal tt |}.
Proof. reflexivity. Qed.

(** C4: an edit of an existing row stores, in a numeric field (y2022,
    y2023, y2024, ttm, mapping_confidence, confidence), null for the
    empty input and the number [Number(s)] for any other input [s]; in
    every other field, null for the empty input and the input string
    itself otherwise. *)
Theorem updateRow_coerces_by_field
    net st (index : nat) (key value : string)
    (r : ConsolidatedResult num) (row : Row num) :
  result st = Some r ->
  array_get (rows r) index = Some row ->
  let st' := final (updateRow Number index key value net st) in
  (key ∈ ["y2022"; "y2023"; "y2024"; "ttm"; "mapping_confidence";
          "confidence"] ->
     (value = "" -> cell st' index key = Some VNull)
     /\ (value <> "" -> cell st' index key = Some (VNumber (Number value))))
  /\ (key ∉ ["y2022"; "y2023"; "y2024"; "ttm"; "mapping_confidence";
             "confidence"] ->
     (value = "" -> cell st' index key = Some VNull)
     /\ (value <> "" -> cell st' index key = Some (VString value))).
Proof.
  intros Hr Hrow st'. subst st'. rewrite updateRow_run. cbn [final].
  assert (index < length (rows r))%nat as Hlt.
  { unfold array_get in Hrow. destruct (rows r !! index) eqn:E; [| done].
    by eapply lookup_lt_Some. }
  unfold cell, setResult, updateRow_updater. cbn [result].
  rewrite Hr. cbn [mbind option_bind rows].
  fold numFields.
  split; intros Hkey.
  - rewrite bool_decide_eq_true_2 by done.
    destruct (array_get_set_in_range (rows r) index
                (<[ key := if decide (value = "") then VNull
                           else VNumber (Number value) ]>
                   (spread (array_get (rows r) index))) Hlt) as [_ ->].
    cbn [mbind option_bind]. rewrite lookup_insert_eq.
    split; intros Hv; [rewrite decide_True | rewrite decide_False]; done.
  - rewrite bool_decide_eq_false_2 by done.
    destruct (array_get_set_in_range (rows r) index
                (<[ key := if decide (value = "") then VNull
                           else VString value ]>
                   (spread (array_get (rows r) index))) Hlt) as [_ ->].
    cbn [mbind option_bind]. rewrite lookup_insert_eq.
    split; intros Hv; [rewrite decide_True | rewrite decide_False]; done.
Qed.

(** C5: an edit of field [key] in row [index], with [index] in bounds,
    sends no request and touches nothing but that field: the other
    fields of the row, the other rows, the meta record and the rest of
    the page state stay as they were. *)
Theorem updateRow_frame
    net st (index : nat) (key value : string)
    (r : ConsolidatedResult num) :
  result st = Some r ->
  (index < length (rows r))%nat ->
  let run := updateRow Number index key value net st in
  trace run = []
  /\ files (final run) = files st
  /\ coaText (final run) = coaText st
  /\ loading (final run) = loading st
  /\ error (final run) = error st
  /\ exists r' : ConsolidatedResult num,
       result (final run) = Some r'
       /\ meta r' = meta r
       /\ length (rows r') = length (rows r)
       /\ (forall j : nat, j <> index -> rows r' !! j = rows r !! j)
       /\ (forall k : string, k <> key ->
             cell (final run) index k = cell st index k).
Proof.
  intros Hr Hlt run. subst run. rewrite updateRow_run. cbn [trace final].
  repeat (split; [reflexivity |]).
  unfold setResult, updateRow_updater. cbn [result]. rewrite Hr.
  eexists. split; [reflexivity |]. cbn [meta rows].
  set (row' := if bool_decide (key ∈ numFields) then _ else _).
  destruct (array_get_set_in_range (rows r) index row' Hlt) as [Hset Hget].
  split; [reflexivity |]. split; [by rewrite Hset, length_insert |].
  split.
  - intros j Hj. rewrite Hset. by apply list_lookup_insert_ne.
  - intros k Hk. unfold cell. cbn [result]. rewrite Hr.
    cbn [mbind option_bind rows]. rewrite Hget. cbn [mbind option_bind].
    assert (row' !! k = spread (array_get (rows r) index) !! k) as ->.
    { subst row'. destruct (bool_decide _); by rewrite lookup_insert_ne. }
    destruct (lookup_lt_is_Some_2 (rows r) index Hlt) as [slot Hslot].
    unfold array_get. rewrite Hslot. cbn [mbind option_bind id].
    destruct slot as [row |]; cbn [mbind option_bind spread default];
      [reflexivity | apply lookup_empty].
Qed.

(** C6 (amended): when the fetch of a consolidate attempt throws, the
    page shows the message of the thrown value if that value is an
    [Error], and "Unexpected error" only if it is not. *)
Theorem onRun_shows_caught_message net st :
  (forall message : string,
     net (run_call st) = Throw (ErrorObject message) ->
     error (final (onRun net st)) = Some message)
  /\ (forall shown : string,
        net (run_call st) = Throw (OtherValue shown) ->
        error (final (onRun net st)) = Some "Unexpected error").
Proof.
  split; intros ? H; rewrite (onRun_rejected _ _ _ H); reflexivity.
Qed.

(** X25: an export the backend answers with a failure shows exactly
    "Export failed", whatever status and body the answer carries; no
    file is saved and nothing else in the page state changes. *)
Theorem onDownload_failure_message
    net st (r : ConsolidatedResult num) (res : Response num) :
  result st = Some r ->
  net (download_call r) = Normal res ->
  ok res = false ->
  error (final (onDownload net st)) = Some "Export failed"
  /\ trace (onDownload net st) = [Fetched (download_call r)]
  /\ final (onDownload net st) = setError (Some "Export failed") st.
Proof.
  intros Hr Hnet Hok. rewrite (onDownload_run _ _ _ Hr), Hnet, Hok.
  repeat split.
Qed.

(** C9: without a result the download action sends nothing and leaves
    the page as it is (the button is not even offered); a request the
    action does send is the export of the result at hand, and with a
    result exactly one such request is sent. *)
Theorem onDownload_needs_result net st :
  (result st = None ->
     download_offered st = false
     /\ trace (onDownload net st) = []
     /\ final (onDownload net st) = st)
  /\ (forall c : FetchCall num,
        c ∈ fetched (trace (onDownload net st)) ->
        exists r, result st = Some r /\ c = download_call r)
  /\ (forall r : ConsolidatedResult num,
        result st = Some r ->
        fetched (trace (onDownload net st)) = [download_call r]).
Proof.
  assert (forall r, result st = Some r ->
            fetched (trace (onDownload net st)) = [download_call r]) as Hone.
  { intros r Hr. rewrite (onDownload_run _ _ _ Hr).
    destruct (net (download_call r)) as [res | t]; [| reflexivity].
    destruct (ok res); [destruct (res_blob res) |]; reflexivity. }
  split; [| split; [| exact Hone]].
  - intros H. rewrite (onDownload_without_result _ _ H).
    unfold download_offered. rewrite H. repeat split.
  - intros c Hc. destruct (result st) as [r |] eqn:Hr.
    + exists r. split; [reflexivity |].
      rewrite (Hone r eq_refl) in Hc.
      by apply list_elem_of_singleton in Hc.
    + rewrite (onDownload_without_result _ _ Hr) in Hc.
      by apply elem_of_nil in Hc.
Qed.

(** C10: a consolidate attempt that fails (the fetch throws, the
    response is not ok, or its JSON cannot be read) leaves the stored
    result, the files and the COA text as they were; it ends with the
    loading flag off and an error message set. *)
Theorem onRun_failure_keeps_result net st :
  (exists t, net (run_call st) = Throw t)
  \/ (exists res, net (run_call st) = Normal res /\ ok res = false)
  \/ (exists res t, net (run_call st) = Normal res /\ ok res = true
                    /\ res_json res = Throw t) ->
  result (final (onRun net st)) = result st
  /\ files (final (onRun net st)) = files st
  /\ coaText (final (onRun net st)) = coaText st
  /\ loading (final (onRun net st)) = false
  /\ is_Some (error (final (onRun net st))).
Proof.
  intros [[t H] | [(res & H & Hok) | (res & t & H & Hok & Hjson)]].
  - rewrite (onRun_rejected _ _ _ H). cbn. eauto 10.
  - rewrite (onRun_not_ok _ _ _ H Hok). cbn. eauto 10.
  - rewrite (onRun_bad_json _ _ _ _ H Hok Hjson). cbn. eauto 10.
Qed.


End Facts.

Lemma updateRow_coerces_by_field_witness :
  cell (final (updateRow Number_of_decimal 0 "y2023" "1234.5" offline
                 sample_state)) 0 "y2023"
  = Some (VNumber (Number_of_decimal "1234.5"))
  /\ cell (final (updateRow Number_of_decimal 1 "notes" "" offline
                    sample_state)) 1 "notes"
     = Some VNull.
Proof.
  split.
  - destruct (updateRow_coerces_by_field Number_of_decimal offline
                sample_state 0 "y2023" "1234.5" sample_result cash_row
                eq_refl eq_refl) as [Hnum _].
    apply Hnum; [apply (bool_decide_unpack _); reflexivity | discriminate].
  - destruct (updateRow_coerces_by_field Number_of_decimal offline
                sample_state 1 "notes" "" sample_result rent_row
                eq_refl eq_refl) as [_ Htext].
    apply Htext; [apply (bool_decide_unpack _); reflexivity | reflexivity].
Defined.

Lemma updateRow_frame_witness :
  trace (updateRow Number_of_decimal 1 "notes" "checked" offline
           sample_state) = []
  /\ cell (final (updateRow Number_of_decimal 1 "notes" "checked" offline
                    sample_state)) 1 "account_name"
     = Some (VString "Rent").
Proof.
  destruct (updateRow_frame Number_of_decimal offline sample_state 1
              "notes" "checked" sample_result eq_refl ltac:(cbn; lia))
    as (Htrace & _ & _ & _ & _ & r' & _ & _ & _ & _ & Hcell).
  split; [exact Htrace |].
  rewrite (Hcell "account_name") by discriminate. reflexivity.
Defined.

(** C6, as stated, fails: a fetch that fails at the network level is
    rejected with a [TypeError], an [Error], and the page shows that
    error's own message. *)
Lemma onRun_network_error_shows_its_message :
  offline (run_call ready_state) = Throw (ErrorObject "Failed to fetch")
  /\ error (final (onRun offline ready_state)) = Some "Failed to fetch"
  /\ error (final (onRun offline ready_state)) <> Some "Unexpected error".
Proof. repeat split. discriminate. Qed.

Lemma onRun_shows_caught_message_witness :
  error (final (onRun offline ready_state)) = Some "Failed to fetch".
Proof.
  destruct (onRun_shows_caught_message offline ready_state) as [Herr _].
  apply Herr. reflexivity.
Defined.

Lemma onDownload_failure_message_witness :
  error (final (onDownload (answering server_error) sample_state))
  = Some "Export failed".
Proof.
  destruct (onDownload_failure_message (answering server_error) sample_state
              sample_result server_error eq_refl eq_refl eq_refl)
    as [Herr _].
  exact Herr.
Defined.

Lemma onDownload_needs_result_witness :
  trace (onDownload (answering server_error) ready_state) = []
  /\ fetched (trace (onDownload (answering server_error) sample_state))
     = [download_call sample_result].
Proof.
  destruct (onDownload_needs_result (answering server_error) ready_state)
    as [Hnone _].
  destruct (onDownload_needs_result (answering server_error) sample_state)
    as (_ & _ & Hone).
  split.
  - apply Hnone. reflexivity.
  - apply Hone. reflexivity.
Defined.

Lemma onRun_failure_keeps_result_witness :
  result (final (onRun (answering server_error) sample_state))
  = Some sample_result
  /\ loading (final (onRun (answering server_error) sample_state)) = false.
Proof.
  destruct (onRun_failure_keeps_result (answering server_error) sample_state)
    as (Hres & _ & _ & Hload & _).
  - right. left. exists server_error. split; reflexivity.
  - split; [exact Hres | exact Hload].
Defined.

(** C7: the claim asks for "Export failed" after every failed export
    attempt.  When the fetch of the export is rejected (the network is
    down), [onDownload], which has no try/catch, lets the rejection
    escape: no message is set, where [onRun] catches the same failure
    and shows a message. *)
Theorem onDownload_rejected_fetch_sets_no_message :
  result sample_state = Some sample_result
  /\ offline (download_call sample_result)
     = Throw (ErrorObject "Failed to fetch")
  /\ outcome (onDownload offline sample_state)
     = Throw (ErrorObject "Failed to fetch")
  /\ error (final (onDownload offline sample_state)) = None
  /\ error (final (onDownload offline sample_state)) <> Some "Export failed"
  /\ error (final (onRun offline sample_state)) = Some "Failed to fetch".
Proof. repeat split. discriminate. Qed.

End PageFacts.

(** ** Further properties of the page *)

Module PageMore.
Import Page PageFacts.

Section Runs.
Context {num : Type}.

Implicit Types (st : State num) (net : Network (FetchCall num) (Response num)).

(** Every run of [onRun], summarised: what it sends, that it completes,
    and the parts of the state no path writes. *)
Lemma onRun_shape net st :
  trace (onRun net st) = [Fetched (run_call st)]
  /\ outcome (onRun net st) = Normal tt
  /\ loading (final (onRun net st)) = false
  /\ files (final (onRun net st)) = files st
  /\ coaText (final (onRun net st)) = coaText st.
Proof.
  destruct (net (run_call st)) as [res | t] eqn:Hnet.
  - destruct (ok res) eqn:Hok.
    + destruct (res_json res) as [data | t] eqn:Hjson.
      * rewrite (onRun_success _ _ _ _ Hnet Hok Hjson). repeat split.
      * rewrite (onRun_bad_json _ _ _ _ Hnet Hok Hjson). repeat split.
    + rewrite (onRun_not_ok _ _ _ Hnet Hok). repeat split.
  - rewrite (onRun_rejected _ _ _ Hnet). repeat split.
Qed.

(** X1: whatever the network does, a run sends exactly one request and
    nothing else: a POST to /api/consolidate without explicit headers
    whose form holds one pdfs entry per selected file, in selection
    order, followed by the coa_csv entry with the COA text. *)
Theorem onRun_sends_one_form net st :
  trace (onRun net st)
  = [Fetched
       {| url := "/api/consolidate";
          method := "POST";
          headers := [];
          body := FormBody
                    (((fun f => ("pdfs", FormFile f)) <$> files st)
                     ++ [("coa_csv", FormString (coaText st))]) |}].
Proof. apply onRun_shape. Qed.

(** X2: a run answered with an ok response whose JSON can be read stores
    that JSON as the result, clears an earlier error message, ends with
    the loading flag off and keeps the files and the COA text. *)
Theorem onRun_success_state
    net st (res : Response num) (data : ConsolidatedResult num) :
  net (run_call st) = Normal res ->
  ok res = true ->
  res_json res = Normal data ->
  final (onRun net st)
  = {| files := files st; coaText := coaText st; result := Some data;
       loading := false; error := None |}.
Proof.
  intros Hnet Hok Hjson. rewrite (onRun_success _ _ _ _ Hnet Hok Hjson).
  reflexivity.
Qed.

Lemma or_string_nonempty (a : option string) (d : string) :
  d <> "" -> or_string a d <> "".
Proof.
  intros Hd. unfold or_string. destruct a as [s |]; [| done].
  destruct (decide (s = "")); done.
Qed.

(** X3: after a response that is not ok and whose text can be read, the
    message is that text, or "Failed to consolidate" when the text is
    empty; it is never empty, so the error paragraph is rendered with
    it. *)
Theorem onRun_not_ok_message_shown
    net st (res : Response num) (text : string) :
  net (run_call st) = Normal res ->
  ok res = false ->
  res_text res = Normal text ->
  (text <> "" -> error (final (onRun net st)) = Some text)
  /\ (text = "" -> error (final (onRun net st)) = Some "Failed to consolidate")
  /\ error_shown (final (onRun net st)) = error (final (onRun net st)).
Proof.
  intros Hnet Hok Htext. rewrite (onRun_not_ok _ _ _ Hnet Hok), Htext.
  cbn [final error setLoading setError]. split; [| split].
  - intros H. by rewrite ProxyFacts.or_string_given.
  - intros ->. reflexivity.
  - unfold error_shown. cbn [error setLoading setError].
    rewrite decide_False; [reflexivity |]. by apply or_string_nonempty.
Qed.

(** X4: no exception escapes [onRun] and it never leaves the page in
    the running state: whatever the network does, it completes with the
    loading flag off, so the button reads Run again and is enabled
    exactly when files are selected. *)
Theorem onRun_always_settles net st :
  outcome (onRun net st) = Normal tt
  /\ loading (final (onRun net st)) = false
  /\ run_label (final (onRun net st)) = "Run"
  /\ run_disabled (final (onRun net st))
     = bool_decide (length (files st) = 0%nat).
Proof.
  destruct (onRun_shape net st) as (_ & Hout & Hload & Hfiles & _).
  unfold run_label, run_disabled. rewrite Hload, Hfiles. by repeat split.
Qed.

(** X5: when the Run button is enabled, no run is in progress and the
    request of the run it starts carries at least one PDF. *)
Theorem run_enabled_sends_pdf net st :
  run_disabled st = false ->
  loading st = false
  /\ exists (f : File) (rest : FormData),
       fetched (trace (onRun net st))
       = [ {| url := "/api/consolidate"; method := "POST"; headers := [];
              body := FormBody (("pdfs", FormFile f) :: rest) |} ].
Proof.
  unfold run_disabled. intros H. apply orb_false_elim in H as [Hload Hfiles].
  split; [exact Hload |].
  destruct (onRun_shape net st) as (-> & _).
  destruct (files st) as [| f fs] eqn:E; [done |].
  exists f, (((fun f => ("pdfs", FormFile f)) <$> fs)
             ++ [("coa_csv", FormString (coaText st))]).
  cbn [fetched]. unfold run_call. rewrite E. reflexivity.
Qed.

(** X6: an export answered with an ok response whose body can be read
    saves exactly one file, named consolidated.xlsx, holding that body,
    after the one export request; the page state stays as it was (an
    earlier error message included). *)
Theorem onDownload_success_saves_file
    net st (r : ConsolidatedResult num) (res : Response num) (blob : bytes) :
  result st = Some r ->
  net (download_call r) = Normal res ->
  ok res = true ->
  res_blob res = Normal blob ->
  trace (onDownload net st)
  = [Fetched {| url := "/api/export-xlsx";
                method := "POST";
                headers := [("Content-Type", "application/json")];
                body := JsonBody r |};
     Saved "consolidated.xlsx" blob]
  /\ final (onDownload net st) = st
  /\ outcome (onDownload net st) = Normal tt.
Proof.
  intros Hr Hnet Hok Hblob.
  rewrite (onDownload_run _ _ _ Hr), Hnet, Hok, Hblob. repeat split.
Qed.

(** X7: the download action never touches the files, the COA text, the
    result or the loading flag, whatever the network does; the error
    message either stays or becomes "Export failed". *)
Theorem onDownload_keeps_page_state net st :
  files (final (onDownload net st)) = files st
  /\ coaText (final (onDownload net st)) = coaText st
  /\ result (final (onDownload net st)) = result st
  /\ loading (final (onDownload net st)) = loading st
  /\ (error (final (onDownload net st)) = error st
      \/ error (final (onDownload net st)) = Some "Export failed").
Proof.
  destruct (result st) as [r |] eqn:Hr.
  - rewrite (onDownload_run _ _ _ Hr).
    destruct (net (download_call r)) as [res | t]; [| by auto 10].
    destruct (ok res); [destruct (res_blob res) |]; cbn; rewrite ?Hr; auto 10.
  - rewrite (onDownload_without_result _ _ Hr). cbn. rewrite ?Hr. auto 10.
Qed.

(** X8: the download action catches nothing: when the fetch is rejected,
    or the body of an ok response cannot be read, the thrown value
    escapes the handler, no message is set and no file is saved. *)
Theorem onDownload_exception_escapes
    net st (r : ConsolidatedResult num) (t : Thrown) :
  result st = Some r ->
  net (download_call r) = Throw t
  \/ (exists res, net (download_call r) = Normal res
                  /\ ok res = true /\ res_blob res = Throw t) ->
  outcome (onDownload net st) = Throw t
  /\ final (onDownload net st) = st
  /\ trace (onDownload net st) = [Fetched (download_call r)].
Proof.
  intros Hr [Hnet | (res & Hnet & Hok & Hblob)];
    rewrite (onDownload_run _ _ _ Hr), Hnet.
  - repeat split.
  - rewrite Hok, Hblob. repeat split.
Qed.

(** [file.text()], as in the page. *)
Variable File_text : File -> Completion string.

(** X9: loading a COA file sends nothing.  When the text of the file
    can be read, it replaces the COA text and nothing else, and the
    next run sends that text as coa_csv with the selected files
    unchanged; when reading fails, the rejection escapes the handler
    and the state stays as it was.  From a chooser that offers several
    files only the first is read, and one that offers none changes
    nothing. *)
Theorem onCoaUpload_feeds_next_run net st (file : File) :
  trace (onCoaUpload File_text file net st) = []
  /\ (forall txt : string,
        File_text file = Normal txt ->
        final (onCoaUpload File_text file net st) = setCoaText txt st
        /\ fetched (trace (onRun net
                             (final (onCoaUpload File_text file net st))))
           = [ {| url := "/api/consolidate"; method := "POST";
                  headers := [];
                  body := FormBody
                            (((fun f => ("pdfs", FormFile f)) <$> files st)
                             ++ [("coa_csv", FormString txt)]) |} ])
  /\ (forall t : Thrown,
        File_text file = Throw t ->
        final (onCoaUpload File_text file net st) = st
        /\ outcome (onCoaUpload File_text file net st) = Throw t)
  /\ (forall others : list File,
        onCoaFileChange File_text (Some (file :: others)) net st
        = onCoaUpload File_text file net st)
  /\ final (onCoaFileChange File_text (Some []) net st) = st
  /\ final (onCoaFileChange File_text None net st) = st.
Proof.
  assert (trace (onCoaUpload File_text file net st) = []) as Htrace.
  { unfold onCoaUpload, mbind, Async_bind, bind, await, modify.
    cbn [outcome trace final]. by destruct (File_text file). }
  split; [exact Htrace |]. split; [| split; [| by repeat split]].
  - intros txt Htxt.
    assert (final (onCoaUpload File_text file net st) = setCoaText txt st)
      as Hfinal.
    { unfold onCoaUpload, mbind, Async_bind, bind, await, modify.
      cbn [outcome trace final]. by rewrite Htxt. }
    split; [exact Hfinal |].
    destruct (onRun_shape net (final (onCoaUpload File_text file net st)))
      as (-> & _).
    rewrite Hfinal. reflexivity.
  - intros t Ht.
    unfold onCoaUpload, mbind, Async_bind, bind, await, modify.
    cbn [outcome trace final]. by rewrite Ht.
Qed.

(** X10: choosing PDFs replaces the earlier selection instead of adding
    to it, and sends nothing; the next run uploads exactly the newly
    chosen files, in their order.  A chooser without a file list
    empties the selection, which disables the Run button. *)
Theorem onFilesChange_replaces_selection net st (chosen : list File) :
  trace (onFilesChange (Some chosen) net st) = []
  /\ files (final (onFilesChange (Some chosen) net st)) = chosen
  /\ fetched (trace (onRun net (final (onFilesChange (Some chosen) net st))))
     = [ {| url := "/api/consolidate"; method := "POST"; headers := [];
            body := FormBody
                      (((fun f => ("pdfs", FormFile f)) <$> chosen)
                       ++ [("coa_csv", FormString (coaText st))]) |} ]
  /\ files (final (onFilesChange None net st)) = []
  /\ run_disabled (final (onFilesChange None net st)) = true.
Proof.
  split; [reflexivity |]. split; [reflexivity |]. split.
  - destruct (onRun_shape net (final (onFilesChange (Some chosen) net st)))
      as (-> & _).
    reflexivity.
  - split; [reflexivity |]. unfold run_disabled. cbn. apply orb_true_r.
Qed.

End Runs.

(** *** Arrays with empty slots *)

Lemma array_get_set_eq {A} (a : list (option A)) (index : nat) (x : A) :
  array_get (array_set a index x) index = Some x.
Proof.
  unfold array_set, array_get. case_decide as Hlt.
  - by rewrite list_lookup_insert_eq.
  - rewrite lookup_app_r by lia. rewrite lookup_app_r.
    + rewrite length_replicate, Nat.sub_diag. reflexivity.
    + rewrite length_replicate. lia.
Qed.

Lemma array_get_set_ne {A} (a : list (option A)) (i j : nat) (x : A) :
  i <> j -> array_get (array_set a i x) j = array_get a j.
Proof.
  intros Hne. unfold array_set, array_get. case_decide as Hlt.
  - by rewrite list_lookup_insert_ne.
  - destruct (decide (j < length a)%nat) as [Hj | Hj].
    + by rewrite lookup_app_l.
    + rewrite (lookup_ge_None_2 a j) by lia. rewrite lookup_app_r by lia.
      destruct (decide (j < i)%nat) as [Hji | Hji].
      * rewrite lookup_app_l by (rewrite length_replicate; lia).
        rewrite lookup_replicate_2 by lia. reflexivity.
      * rewrite lookup_ge_None_2; [reflexivity |].
        rewrite length_app, length_replicate. cbn. lia.
Qed.

Lemma length_array_set {A} (a : list (option A)) (index : nat) (x : A) :
  length (array_set a index x) = (length a `max` S index)%nat.
Proof.
  unfold array_set. case_decide as Hlt.
  - rewrite length_insert. lia.
  - rewrite !length_app, length_replicate. cbn. lia.
Qed.

Lemma array_set_set_eq {A} (a : list (option A)) (index : nat) (x y : A) :
  array_set (array_set a index x) index y = array_set a index y.
Proof.
  unfold array_set at 1. rewrite decide_True
    by (rewrite length_array_set; lia).
  unfold array_set. case_decide as Hlt.
  - apply list_insert_insert_eq.
  - rewrite insert_app_r_alt by lia.
    rewrite insert_app_r_alt by (rewrite length_replicate; lia).
    rewrite length_replicate, Nat.sub_diag. reflexivity.
Qed.

Lemma array_set_commute {A} (a : list (option A)) (i j : nat) (x y : A) :
  i <> j -> (i < length a)%nat -> (j < length a)%nat ->
  array_set (array_set a i x) j y = array_set (array_set a j y) i x.
Proof.
  intros Hne Hi Hj. unfold array_set.
  rewrite (decide_True (P := (i < length a)%nat)) by done.
  rewrite (decide_True (P := (j < length a)%nat)) by done.
  rewrite !decide_True by (rewrite length_insert; done).
  apply list_eq. intros k.
  destruct (decide (i = k)) as [Hik | Hik];
    destruct (decide (j = k)) as [Hjk | Hjk]; [congruence | | |].
  - subst k. rewrite list_lookup_insert_ne by done.
    by rewrite !list_lookup_insert_eq by (rewrite ?length_insert; done).
  - subst k. rewrite (list_lookup_insert_ne _ i j) by done.
    by rewrite !list_lookup_insert_eq by (rewrite ?length_insert; done).
  - by rewrite !list_lookup_insert_ne by done.
Qed.

Section Edits.
Context {num : Type}.
Variable Number : string -> num.
Variable String_of_number : num -> string.

Implicit Types (st : State num) (net : Network (FetchCall num) (Response num)).

(** The updater, with the stored value named. *)
Lemma updateRow_updater_Some index key value (p : ConsolidatedResult num) :
  updateRow_updater Number index key value (Some p)
  = Some {| meta := meta p;
            rows := array_set (rows p) index
                      (<[ key := coerced Number key value ]>
                         (spread (array_get (rows p) index))) |}.
Proof.
  unfold updateRow_updater, coerced.
  destruct (bool_decide (key ∈ numFields)); reflexivity.
Qed.

Lemma spread_Some (row : Row num) : spread (Some row) = row.
Proof. reflexivity. Qed.

Lemma spread_None : spread None = (∅ : Row num).
Proof. reflexivity. Qed.

Lemma final_updateRow net st index key value :
  final (updateRow Number index key value net st)
  = setResult (updateRow_updater Number index key value (result st)) st.
Proof. reflexivity. Qed.

Lemma setResult_same st : setResult (result st) st = st.
Proof. by destruct st. Qed.

(** X11: without a result an edit changes nothing, and an edit never
    makes a result appear or disappear, nor does it send anything. *)
Theorem updateRow_keeps_result_presence net st index key value :
  trace (updateRow Number index key value net st) = []
  /\ (result st = None ->
      final (updateRow Number index key value net st) = st)
  /\ (is_Some (result (final (updateRow Number index key value net st)))
      <-> is_Some (result st)).
Proof.
  rewrite final_updateRow. split; [reflexivity |]. split.
  - intros H. rewrite H. cbn [updateRow_updater]. rewrite <- H.
    apply setResult_same.
  - cbn [result setResult]. destruct (result st) as [p |].
    + rewrite updateRow_updater_Some. split; eauto.
    + reflexivity.
Qed.

(** X12: an edit addressed past the end of the rows makes the array
    grow to reach the index: the rows there were stay in place, the
    slots in between are empty, and the new last slot holds an object
    with the edited field only. *)
Theorem updateRow_past_end_grows
    net st index key value (r : ConsolidatedResult num) :
  result st = Some r ->
  (length (rows r) <= index)%nat ->
  result (final (updateRow Number index key value net st))
  = Some {| meta := meta r;
            rows := rows r
                    ++ replicate (index - length (rows r)) None
                    ++ [Some {[ key := coerced Number key value ]}] |}.
Proof.
  intros Hr Hle. rewrite final_updateRow. cbn [result setResult].
  rewrite Hr, updateRow_updater_Some. do 2 f_equal.
  unfold array_set, array_get. rewrite decide_False by lia.
  rewrite lookup_ge_None_2 by done. cbn [mbind option_bind].
  by rewrite spread_None, insert_empty.
Qed.

Lemma updater_last_write index key v1 v2
    (prev : option (ConsolidatedResult num)) :
  updateRow_updater Number index key v2
    (updateRow_updater Number index key v1 prev)
  = updateRow_updater Number index key v2 prev.
Proof.
  destruct prev as [p |]; [| reflexivity].
  rewrite !updateRow_updater_Some. cbn [meta rows]. do 2 f_equal.
  rewrite array_get_set_eq, spread_Some.
  by rewrite insert_insert_eq, array_set_set_eq.
Qed.

(** X13: of two edits of the same cell of a row within bounds the
    later one wins: the state after both is the state after the later
    one alone.  In particular such an edit done twice is the edit done
    once. *)
Theorem updateRow_last_write_wins
    net st index key v1 v2 (r : ConsolidatedResult num) :
  result st = Some r ->
  (index < length (rows r))%nat ->
  final (updateRow Number index key v2 net
           (final (updateRow Number index key v1 net st)))
  = final (updateRow Number index key v2 net st).
Proof.
  intros _ _. rewrite !final_updateRow. unfold setResult.
  cbn [result files coaText loading error]. by rewrite updater_last_write.
Qed.

(** X14: edits of two different cells of existing rows can be made in
    either order: the resulting states are equal. *)
Theorem updateRow_commute
    net st (r : ConsolidatedResult num) i1 k1 v1 i2 k2 v2 :
  result st = Some r ->
  (i1 < length (rows r))%nat ->
  (i2 < length (rows r))%nat ->
  i1 <> i2 \/ k1 <> k2 ->
  final (updateRow Number i2 k2 v2 net
           (final (updateRow Number i1 k1 v1 net st)))
  = final (updateRow Number i1 k1 v1 net
             (final (updateRow Number i2 k2 v2 net st))).
Proof.
  intros Hr H1 H2 Hne. rewrite !final_updateRow. unfold setResult.
  cbn [result files coaText loading error]. f_equal.
  rewrite Hr, !updateRow_updater_Some. cbn [meta rows]. do 2 f_equal.
  destruct (decide (i1 = i2)) as [<- | Hi].
  - destruct Hne as [? | Hk]; [done |].
    rewrite !array_get_set_eq, !array_set_set_eq, !spread_Some.
    f_equal. by apply insert_insert_ne.
  - rewrite (array_get_set_ne _ i1 i2) by done.
    rewrite (array_get_set_ne _ i2 i1) by done.
    by apply array_set_commute.
Qed.

(** X15: an edit of a field the row already has, which is all the
    table offers, leaves the row with the same set of fields and the
    array with the same number of rows. *)
Theorem updateRow_keeps_fields
    net st index key value (r : ConsolidatedResult num) (row : Row num) :
  result st = Some r ->
  array_get (rows r) index = Some row ->
  is_Some (row !! key) ->
  exists (r' : ConsolidatedResult num) (row' : Row num),
    result (final (updateRow Number index key value net st)) = Some r'
    /\ array_get (rows r') index = Some row'
    /\ dom row' = dom row
    /\ length (rows r') = length (rows r).
Proof.
  intros Hr Hrow Hkey. rewrite final_updateRow. cbn [result setResult].
  rewrite Hr, updateRow_updater_Some. eexists _, _.
  split; [reflexivity |]. cbn [rows]. split; [apply array_get_set_eq |].
  rewrite Hrow, spread_Some. split.
  - by apply dom_insert_lookup_L.
  - rewrite length_array_set.
    assert (index < length (rows r))%nat; [| lia].
    unfold array_get in Hrow. destruct (rows r !! index) eqn:E; [| done].
    by eapply lookup_lt_Some.
Qed.

(** X16: typing into a cell the very text its input shows changes
    nothing when the cell holds null (any field), or a non-empty string
    in a field that is not numeric.  A cell that holds the empty string
    shows as empty too, and such an edit turns it into null. *)
Theorem updateRow_with_shown_text
    net st index key (v : Value num) :
  cell st index key = Some v ->
  (v = VNull \/ (exists s, v = VString s /\ s <> "" /\ key ∉ numFields) ->
   final (updateRow Number index key
            (input_value String_of_number v) net st) = st)
  /\ (v = VString "" ->
      cell (final (updateRow Number index key
                     (input_value String_of_number v) net st)) index key
      = Some VNull).
Proof.
  unfold cell. intros Hcell.
  destruct (result st) as [r |] eqn:Hr; [| done]. cbn [mbind option_bind] in Hcell.
  destruct (array_get (rows r) index) as [row |] eqn:Hrow; [| done].
  cbn [mbind option_bind] in Hcell.
  rewrite final_updateRow, Hr, updateRow_updater_Some, Hrow, spread_Some.
  split.
  - intros Hv.
    assert (coerced Number key (input_value String_of_number v) = v) as ->.
    { unfold coerced. destruct Hv as [-> | (s & -> & Hs & Hkey)]; cbn.
      - by destruct (bool_decide _).
      - rewrite bool_decide_eq_false_2 by done. by rewrite decide_False. }
    rewrite insert_id by done.
    assert (array_set (rows r) index row = rows r) as ->.
    { unfold array_get in Hrow.
      destruct (rows r !! index) as [[row0 |] |] eqn:E; try done.
      cbn in Hrow. injection Hrow as ->.
      unfold array_set. rewrite decide_True by (by eapply lookup_lt_Some).
      by apply list_insert_id. }
    destruct r. cbn [meta rows]. rewrite <- Hr. apply setResult_same.
  - intros ->. cbn [result setResult mbind option_bind rows].
    rewrite array_get_set_eq. cbn [mbind option_bind].
    rewrite lookup_insert_eq. unfold coerced. cbn.
    by destruct (bool_decide _).
Qed.

Lemma onDownload_fetched net st (r : ConsolidatedResult num) :
  result st = Some r ->
  fetched (trace (onDownload net st)) = [download_call r].
Proof.
  intros Hr. rewrite (onDownload_run _ _ _ Hr).
  destruct (net (download_call r)) as [res | t]; [| reflexivity].
  destruct (ok res); [destruct (res_blob res) |]; reflexivity.
Qed.

(** X17: an export that follows an edit stringifies the edited result:
    the value handed to [JSON.stringify] for the body of its one
    request has the same meta record, the edited row with the coerced
    value in the edited field, and every other row as before. *)
Theorem export_carries_edit
    net net' st index key value
    (r : ConsolidatedResult num) (row : Row num) :
  result st = Some r ->
  array_get (rows r) index = Some row ->
  exists r' : ConsolidatedResult num,
    fetched (trace (onDownload net'
                      (final (updateRow Number index key value net st))))
    = [ {| url := "/api/export-xlsx";
           method := "POST";
           headers := [("Content-Type", "application/json")];
           body := JsonBody r' |} ]
    /\ meta r' = meta r
    /\ array_get (rows r') index
       = Some (<[ key := coerced Number key value ]> row)
    /\ forall j : nat, j <> index ->
         array_get (rows r') j = array_get (rows r) j.
Proof.
  intros Hr Hrow. eexists. split.
  - apply onDownload_fetched. rewrite final_updateRow. cbn [result setResult].
    rewrite Hr. apply updateRow_updater_Some.
  - cbn [meta rows]. rewrite Hrow, spread_Some. split; [reflexivity |].
    split; [apply array_get_set_eq |].
    intros j Hj. by apply array_get_set_ne.
Qed.

(** X18: in a state whose slots all hold rows, an edit within bounds
    leaves every slot holding a row and the number of rows as it was;
    so [hasRows] stays true and the table still has a row to render at
    every index. *)
Theorem updateRow_keeps_table
    net st index key value (r : ConsolidatedResult num) :
  result st = Some r ->
  Forall is_Some (rows r) ->
  (index < length (rows r))%nat ->
  exists r' : ConsolidatedResult num,
    result (final (updateRow Number index key value net st)) = Some r'
    /\ Forall is_Some (rows r')
    /\ length (rows r') = length (rows r)
    /\ hasRows (final (updateRow Number index key value net st)) = true.
Proof.
  intros Hr Hall Hlt. unfold hasRows. rewrite final_updateRow.
  cbn [result setResult]. rewrite Hr, updateRow_updater_Some.
  eexists. split; [reflexivity |]. cbn [rows].
  unfold array_set. rewrite decide_True by done.
  split; [| split].
  - apply Forall_insert; [done | eauto].
  - apply length_insert.
  - apply bool_decide_eq_true. rewrite length_insert. lia.
Qed.

End Edits.

(** *** The properties at sample inputs *)

Lemma onRun_success_state_witness :
  final (onRun (answering consolidated) ready_state)
  = {| files := [one_pdf]; coaText := "1000,Cash";
       result := Some sample_result; loading := false; error := None |}.
Proof.
  exact (onRun_success_state (answering consolidated) ready_state
           consolidated sample_result eq_refl eq_refl eq_refl).
Defined.

Lemma onRun_not_ok_message_shown_witness :
  error (final (onRun (answering server_error) ready_state))
  = Some "Internal Server Error".
Proof.
  destruct (onRun_not_ok_message_shown (answering server_error) ready_state
              server_error "Internal Server Error" eq_refl eq_refl eq_refl)
    as [Htext _].
  apply Htext. discriminate.
Defined.

Lemma run_enabled_sends_pdf_witness :
  loading ready_state = false
  /\ exists (f : File) (rest : FormData),
       fetched (trace (onRun offline ready_state))
       = [ {| url := "/api/consolidate"; method := "POST"; headers := [];
              body := FormBody (("pdfs", FormFile f) :: rest) |} ].
Proof.
  exact (run_enabled_sends_pdf offline ready_state eq_refl).
Defined.

Lemma onDownload_success_saves_file_witness :
  trace (onDownload (answering spreadsheet) sample_state)
  = [Fetched {| url := "/api/export-xlsx";
                method := "POST";
                headers := [("Content-Type", "application/json")];
                body := JsonBody sample_result |};
     Saved "consolidated.xlsx" (utf8 "PK")]
  /\ final (onDownload (answering spreadsheet) sample_state) = sample_state
  /\ outcome (onDownload (answering spreadsheet) sample_state) = Normal tt.
Proof.
  exact (onDownload_success_saves_file (answering spreadsheet) sample_state
           sample_result spreadsheet (utf8 "PK")
           eq_refl eq_refl eq_refl eq_refl).
Defined.

Lemma onDownload_exception_escapes_witness :
  outcome (onDownload offline sample_state)
  = Throw (ErrorObject "Failed to fetch")
  /\ final (onDownload offline sample_state) = sample_state
  /\ trace (onDownload offline sample_state)
     = [Fetched (download_call sample_result)].
Proof.
  exact (onDownload_exception_escapes offline sample_state sample_result
           (ErrorObject "Failed to fetch") eq_refl (or_introl eq_refl)).
Defined.

Lemma updateRow_keeps_result_presence_witness :
  final (updateRow Number_of_decimal 0 "notes" "x" offline ready_state)
  = ready_state.
Proof.
  destruct (updateRow_keeps_result_presence Number_of_decimal offline
              ready_state 0 "notes" "x") as (_ & Hnone & _).
  apply Hnone. reflexivity.
Defined.

Lemma updateRow_past_end_grows_witness :
  result (final (updateRow Number_of_decimal 3 "notes" "new" offline
                   sample_state))
  = Some {| meta := meta sample_result;
            rows := [Some cash_row; Some rent_row; None;
                     Some {[ "notes" := VString "new" ]}] |}.
Proof.
  exact (updateRow_past_end_grows Number_of_decimal offline sample_state 3
           "notes" "new" sample_result eq_refl ltac:(cbn; lia)).
Defined.

Lemma updateRow_commute_witness :
  final (updateRow Number_of_decimal 1 "notes" "checked" offline
           (final (updateRow Number_of_decimal 0 "y2024" "77" offline
                     sample_state)))
  = final (updateRow Number_of_decimal 0 "y2024" "77" offline
             (final (updateRow Number_of_decimal 1 "notes" "checked" offline
                       sample_state))).
Proof.
  apply (updateRow_commute Number_of_decimal offline sample_state
           sample_result 0 "y2024" "77" 1 "notes" "checked" eq_refl).
  - cbn; lia.
  - cbn; lia.
  - left. discriminate.
Defined.

Lemma updateRow_keeps_fields_witness :
  exists (r' : ConsolidatedResult decimal) (row' : Row decimal),
    result (final (updateRow Number_of_decimal 1 "notes" "" offline
                     sample_state)) = Some r'
    /\ array_get (rows r') 1 = Some row'
    /\ dom row' = dom rent_row
    /\ length (rows r') = 2%nat.
Proof.
  exact (updateRow_keeps_fields Number_of_decimal offline sample_state 1
           "notes" "" sample_result rent_row eq_refl eq_refl
           (ex_intro _ (VString "estimated") eq_refl)).
Defined.

Lemma updateRow_with_shown_text_witness :
  final (updateRow Number_of_decimal 1 "notes" "estimated" offline
           sample_state) = sample_state
  /\ final (updateRow Number_of_decimal 0 "y2024" "" offline sample_state)
     = sample_state.
Proof.
  split.
  - destruct (updateRow_with_shown_text Number_of_decimal (fun n => n) offline
                sample_state 1 "notes" (VString "estimated") eq_refl)
      as [Hsame _].
    apply Hsame. right. exists "estimated".
    split; [reflexivity |]. split; [discriminate |].
    apply (bool_decide_unpack _). reflexivity.
  - destruct (updateRow_with_shown_text Number_of_decimal (fun n => n) offline
                sample_state 0 "y2024" VNull eq_refl)
      as [Hsame _].
    apply Hsame. left. reflexivity.
Defined.

Lemma export_carries_edit_witness :
  exists r' : ConsolidatedResult decimal,
    fetched (trace (onDownload (answering spreadsheet)
                      (final (updateRow Number_of_decimal 0 "y2024" "77"
                                offline sample_state))))
    = [ {| url := "/api/export-xlsx";
           method := "POST";
           headers := [("Content-Type", "application/json")];
           body := JsonBody r' |} ]
    /\ array_get (rows r') 0
       = Some (<[ "y2024" := VNumber "77" ]> cash_row).
Proof.
  destruct (export_carries_edit Number_of_decimal offline
              (answering spreadsheet) sample_state 0 "y2024" "77"
              sample_result cash_row eq_refl eq_refl)
    as (r' & Hsent & _ & Hrow & _).
  exists r'. split; [exact Hsent | exact Hrow].
Defined.

Lemma updateRow_keeps_table_witness :
  exists r' : ConsolidatedResult decimal,
    result (final (updateRow Number_of_decimal 1 "notes" "x" offline
                     sample_state)) = Some r'
    /\ Forall is_Some (rows r')
    /\ length (rows r') = 2%nat
    /\ hasRows (final (updateRow Number_of_decimal 1 "notes" "x" offline
                         sample_state)) = true.
Proof.
  apply (updateRow_keeps_table Number_of_decimal offline sample_state 1
           "notes" "x" sample_result eq_refl).
  - repeat constructor; eauto.
  - cbn; lia.
Defined.

Lemma updateRow_last_write_wins_witness :
  final (updateRow Number_of_decimal 0 "y2024" "78" offline
           (final (updateRow Number_of_decimal 0 "y2024" "77" offline
                     sample_state)))
  = final (updateRow Number_of_decimal 0 "y2024" "78" offline sample_state).
Proof.
  apply (updateRow_last_write_wins Number_of_decimal offline sample_state 0
           "y2024" "77" "78" sample_result eq_refl).
  cbn; lia.
Defined.

Lemma onCoaUpload_feeds_next_run_witness :
  final (onCoaUpload text_of_ascii_file coa_file offline ready_state)
  = setCoaText "2000,Rent" ready_state.
Proof.
  destruct (onCoaUpload_feeds_next_run text_of_ascii_file offline
              ready_state coa_file) as (_ & Hread & _).
  destruct (Hread "2000,Rent" eq_refl) as [Hfinal _]. exact Hfinal.
Defined.

End PageMore.

(** ** Further properties of the route handlers *)

Module ProxyMore.
Import Proxy ProxyFacts.




(** X20: the consolidate proxy's response has one header, content-type:
    the backend's when it is not empty, application/json when it is
    missing or empty.  No other header of the backend is passed on. *)
Theorem consolidate_content_type_only
    (env : Env) (net : Network FetchCall Response) (req : NextRequest)
    (fd : FormData) (response : Response) :
  rq_formData req = Normal fd ->
  net (consolidate_call env fd) = Normal response ->
  relayable (rs_status response) = true ->
  exists r,
    outcome (ConsolidateRoute.POST env req net tt) = Normal r
    /\ (forall v, rs_headers response !! "content-type" = Some v -> v <> "" ->
        rs_headers r !! "content-type" = Some v)
    /\ (rs_headers response !! "content-type" = None
        \/ rs_headers response !! "content-type" = Some "" ->
        rs_headers r !! "content-type" = Some "application/json")
    /\ (forall name : string, name <> "content-type" ->
        rs_headers r !! name = None).
Proof.
  intros Hfd Hnet Hst. rewrite (consolidate_run _ _ _ fd Hfd), Hnet.
  cbn [outcome]. rewrite NextResponse_new_relayable by done.
  eexists. split; [reflexivity |]. cbn [rs_headers]. split; [| split].
  - intros v Hv Hne. by rewrite Hv, lookup_singleton_eq, or_string_given.
  - intros [H | H]; by rewrite H, lookup_singleton_eq.
  - intros name Hname. by apply lookup_singleton_ne.
Qed.

(** X21: the export proxy's response has exactly two headers,
    content-type and content-disposition, whatever headers the backend
    sent; every other header of the backend is dropped. *)
Theorem export_two_headers_only
    (env : Env) (net : Network FetchCall Response) (req : NextRequest)
    (body : string) (response : Response) :
  rq_text req = Normal body ->
  net (export_call env body) = Normal response ->
  relayable (rs_status response) = true ->
  exists r,
    outcome (ExportRoute.POST env req net tt) = Normal r
    /\ dom (rs_headers r) = {[ "content-type"; "content-disposition" ]}
    /\ (forall name : string,
          name <> "content-type" -> name <> "content-disposition" ->
          rs_headers r !! name = None).
Proof.
  intros Hbody Hnet Hst. rewrite (export_run _ _ _ body Hbody), Hnet.
  cbn [outcome]. rewrite NextResponse_new_relayable by done.
  eexists. split; [reflexivity |]. cbn [rs_headers]. split.
  - rewrite !dom_insert_L, dom_empty_L. set_solver.
  - intros name H1 H2. by rewrite !lookup_insert_ne, lookup_empty.
Qed.

(** X22: when the body of the incoming request cannot be read
    ([formData()], respectively [text()], is rejected), the handler
    throws that value and sends nothing to the backend. *)
Theorem unreadable_request_sends_nothing
    (env : Env) (net : Network FetchCall Response) (req : NextRequest)
    (t : Thrown) :
  (rq_formData req = Throw t ->
   trace (ConsolidateRoute.POST env req net tt) = []
   /\ outcome (ConsolidateRoute.POST env req net tt) = Throw t)
  /\ (rq_text req = Throw t ->
      trace (ExportRoute.POST env req net tt) = []
      /\ outcome (ExportRoute.POST env req net tt) = Throw t).
Proof.
  split; intros H.
  - unfold ConsolidateRoute.POST, mbind, Async_bind, bind, await.
    cbn [outcome trace final]. rewrite H. split; reflexivity.
  - unfold ExportRoute.POST, mbind, Async_bind, bind, await.
    cbn [outcome trace final]. rewrite H. split; reflexivity.
Qed.

(** X23: when the backend cannot be reached (the fetch is rejected),
    the handler throws the value the fetch was rejected with, after
    that one attempt: there is no retry and no response of its own. *)
Theorem backend_unreachable_propagates
    (env : Env) (net : Network FetchCall Response)
    (req_c req_e : NextRequest) (fd : FormData) (body : string)
    (t : Thrown) :
  rq_formData req_c = Normal fd ->
  rq_text req_e = Normal body ->
  (net (consolidate_call env fd) = Throw t ->
   outcome (ConsolidateRoute.POST env req_c net tt) = Throw t
   /\ length (trace (ConsolidateRoute.POST env req_c net tt)) = 1%nat)
  /\ (net (export_call env body) = Throw t ->
      outcome (ExportRoute.POST env req_e net tt) = Throw t
      /\ length (trace (ExportRoute.POST env req_e net tt)) = 1%nat).
Proof.
  intros Hfd Hbody.
  rewrite (consolidate_run _ _ _ fd Hfd), (export_run _ _ _ body Hbody).
  cbn [outcome trace]. split; intros ->; split; reflexivity.
Qed.

(** X24: the export proxy sends the text of the request unchanged, as
    the body of one POST to the backend's export endpoint marked
    Content-Type: application/json, whatever content type the request
    had.  On the wire that is the UTF-8 encoding of the text, so a
    request body that is the UTF-8 encoding of its text goes out
    byte-for-byte. *)
Theorem export_forwards_text
    (env : Env) (net : Network FetchCall Response) (req : NextRequest)
    (body : string) (encode : FormData -> bytes) :
  rq_text req = Normal body ->
  fetched (trace (ExportRoute.POST env req net tt))
  = [ {| fc_url := backend_origin env +:+ "/api/export-xlsx";
         fc_method := "POST";
         fc_headers := [("Content-Type", "application/json")];
         fc_body := BodyText body |} ]
  /\ forwarded encode (trace (ExportRoute.POST env req net tt)) = [utf8 body]
  /\ (body = string_of_list_byte (rq_bytes req) ->
      forwarded encode (trace (ExportRoute.POST env req net tt))
      = [rq_bytes req]).
Proof.
  intros Hbody. rewrite (export_run _ _ _ body Hbody).
  split; [reflexivity |]. split; [reflexivity |].
  intros ->. cbn. unfold utf8.
  by rewrite list_byte_of_string_of_list_byte.
Qed.

(** *** The properties at sample inputs *)


Lemma consolidate_content_type_only_witness :
  exists r,
    outcome (ConsolidateRoute.POST ∅ (submission "AaB03x" upload_form)
               (reply 200 binary_headers (utf8 "PK")) tt) = Normal r
    /\ rs_headers r !! "content-type" = Some "application/octet-stream"
    /\ rs_headers r !! "set-cookie" = None.
Proof.
  destruct (consolidate_content_type_only ∅
              (reply 200 binary_headers (utf8 "PK"))
              (submission "AaB03x" upload_form) upload_form
              {| rs_status := 200; rs_headers := binary_headers;
                 rs_body := utf8 "PK" |}
              eq_refl eq_refl eq_refl) as (r & Hr & Hgiven & _ & Hother).
  exists r. split; [exact Hr |]. split.
  - apply Hgiven; [reflexivity | discriminate].
  - apply Hother. discriminate.
Defined.

Lemma export_two_headers_only_witness :
  exists r,
    outcome (ExportRoute.POST ∅ (json_request "{}")
               (reply 200 binary_headers (utf8 "PK")) tt) = Normal r
    /\ dom (rs_headers r) = {[ "content-type"; "content-disposition" ]}.
Proof.
  destruct (export_two_headers_only ∅
              (reply 200 binary_headers (utf8 "PK"))
              (json_request "{}") "{}"
              {| rs_status := 200; rs_headers := binary_headers;
                 rs_body := utf8 "PK" |}
              eq_refl eq_refl eq_refl) as (r & Hr & Hdom & _).
  exists r. split; [exact Hr | exact Hdom].
Defined.

Lemma unreadable_request_sends_nothing_witness :
  trace (ConsolidateRoute.POST ∅ (json_request "{}") (reply 200 ∅ []) tt) = []
  /\ outcome (ConsolidateRoute.POST ∅ (json_request "{}") (reply 200 ∅ []) tt)
     = Throw (ErrorObject "Failed to parse body as FormData.").
Proof.
  destruct (unreadable_request_sends_nothing ∅ (reply 200 ∅ [])
              (json_request "{}")
              (ErrorObject "Failed to parse body as FormData."))
    as [Hform _].
  apply Hform. reflexivity.
Defined.

Lemma backend_unreachable_propagates_witness :
  outcome (ConsolidateRoute.POST ∅ (submission "AaB03x" upload_form)
             (fun _ => Throw (ErrorObject "fetch failed")) tt)
  = Throw (ErrorObject "fetch failed").
Proof.
  destruct (backend_unreachable_propagates ∅
              (fun _ => Throw (ErrorObject "fetch failed"))
              (submission "AaB03x" upload_form) (json_request "{}")
              upload_form "{}" (ErrorObject "fetch failed")
              eq_refl eq_refl) as [Hc _].
  destruct (Hc eq_refl) as [Hout _]. exact Hout.
Defined.

Lemma export_forwards_text_witness :
  forwarded (multipart_encode "undici")
    (trace (ExportRoute.POST ∅ (json_request "{}") (reply 200 ∅ []) tt))
  = [rq_bytes (json_request "{}")].
Proof.
  destruct (export_forwards_text ∅ (reply 200 ∅ []) (json_request "{}")
              "{}" (multipart_encode "undici") eq_refl) as (_ & _ & Hbytes).
  apply Hbytes. reflexivity.
Defined.

End ProxyMore.
